(** * Conference.js (react/features/conference/components/web)

    A shallow embedding of the web [Conference] component of jitsi-meet:
    the class-name table [LAYOUT_CLASSNAMES], [_mapStateToProps], the
    constructor, [render] and the ref callback [_setBackground], followed
    by the properties of the layout and visibility decisions they take.

    React elements are first-order trees, the DOM touched by
    [_setBackground] is a store of elements addressed by reference, and
    JavaScript numbers are an abstract type: the component only passes
    them on. *)

From stdpp Require Import base option gmap strings list.

Open Scope string_scope.

(** ** JavaScript values *)

(** The primitives that can reach a property access as a key. *)
Inductive Primitive : Type :=
  | PUndefined
  | PNull
  | PBoolean (b : bool)
  | PString (s : string).

(** ECMAScript ToPropertyKey on primitives. *)
Definition ToPropertyKey (p : Primitive) : string :=
  match p with
  | PUndefined => "undefined"
  | PNull => "null"
  | PBoolean true => "true"
  | PBoolean false => "false"
  | PString s => s
  end.

(** What a property read on an object literal with string values can
    give back: one of its strings, [undefined], or a member inherited
    from [Object.prototype]. *)
Inductive JSValue : Type :=
  | VUndefined
  | VBool (b : bool)
  | VString (s : string)
  | VBuiltin (name : string).

Global Instance JSValue_eq_dec : EqDecision JSValue.
Proof. solve_decision. Defined.

Definition truthy (v : JSValue) : bool :=
  match v with
  | VUndefined => false
  | VBool b => b
  | VString s => negb (String.eqb s "")
  | VBuiltin _ => true
  end.

(** The names every ordinary object inherits from [Object.prototype]. *)
Definition Object_prototype : list string :=
  [ "constructor"; "__defineGetter__"; "__defineSetter__"; "hasOwnProperty";
    "__lookupGetter__"; "__lookupSetter__"; "isPrototypeOf";
    "propertyIsEnumerable"; "toString"; "valueOf"; "__proto__";
    "toLocaleString" ].

(** [obj[key]] on an object literal whose own properties are [own]: own
    properties first, then the prototype, else [undefined]. *)
Definition get (own : gmap string string) (key : Primitive) : JSValue :=
  let k := ToPropertyKey key in
  match own !! k with
  | Some s => VString s
  | None => if bool_decide (k ∈ Object_prototype) then VBuiltin k else VUndefined
  end.

(** The error kinds the specification names, and the completion of an
    evaluation: a value, or an error thrown to the caller. *)
Inductive ErrorKind : Type :=
  | UnknownLayout
  | InvalidColor.

Inductive Completion (A : Type) : Type :=
  | Normal (a : A)
  | Throw (e : ErrorKind).

Arguments Normal {A} a.
Arguments Throw {A} e.

(** ** The layout table *)

(** [LAYOUTS] is imported from [features/video-layout]; its three values
    are the property keys of the table below. *)
Record LAYOUTS_t : Type := {
  HORIZONTAL_FILMSTRIP_VIEW : string;
  TILE_VIEW : string;
  VERTICAL_FILMSTRIP_VIEW : string
}.

(** The three-valued layout mode and its key in [LAYOUTS]. *)
Inductive LayoutMode : Type :=
  | HorizontalFilmstrip
  | TileView
  | VerticalFilmstrip.

Global Instance LayoutMode_eq_dec : EqDecision LayoutMode.
Proof. solve_decision. Defined.

Definition layout_key (LAYOUTS : LAYOUTS_t) (m : LayoutMode) : string :=
  match m with
  | HorizontalFilmstrip => HORIZONTAL_FILMSTRIP_VIEW LAYOUTS
  | TileView => TILE_VIEW LAYOUTS
  | VerticalFilmstrip => VERTICAL_FILMSTRIP_VIEW LAYOUTS
  end.

(** [LAYOUT_CLASSNAMES]: an object literal with three computed keys,
    defined in source order (a later equal key overwrites an earlier). *)
Definition LAYOUT_CLASSNAMES (LAYOUTS : LAYOUTS_t) : gmap string string :=
  <[VERTICAL_FILMSTRIP_VIEW LAYOUTS := "vertical-filmstrip"]>
    (<[TILE_VIEW LAYOUTS := "tile-view"]>
      (<[HORIZONTAL_FILMSTRIP_VIEW LAYOUTS := "horizontal-filmstrip"]> ∅)).

(** The lookup [LAYOUT_CLASSNAMES[layout]] of [_mapStateToProps]. *)
Definition layoutClassName (LAYOUTS : LAYOUTS_t) (layout : Primitive) : JSValue :=
  get (LAYOUT_CLASSNAMES LAYOUTS) layout.

(** The lookup at the key of a layout mode. *)
Definition of_mode (LAYOUTS : LAYOUTS_t) (m : LayoutMode) : JSValue :=
  layoutClassName LAYOUTS (PString (layout_key LAYOUTS m)).

(** The three keys are three different property names. *)
Definition distinct_keys (LAYOUTS : LAYOUTS_t) : Prop :=
  HORIZONTAL_FILMSTRIP_VIEW LAYOUTS ≠ TILE_VIEW LAYOUTS
  ∧ HORIZONTAL_FILMSTRIP_VIEW LAYOUTS ≠ VERTICAL_FILMSTRIP_VIEW LAYOUTS
  ∧ TILE_VIEW LAYOUTS ≠ VERTICAL_FILMSTRIP_VIEW LAYOUTS.

(** The class written next to each key in the source of the table. *)
Definition class_of_mode (m : LayoutMode) : string :=
  match m with
  | HorizontalFilmstrip => "horizontal-filmstrip"
  | TileView => "tile-view"
  | VerticalFilmstrip => "vertical-filmstrip"
  end.

(** An assignment of three distinct keys, on which the table is run. *)
Definition LAYOUTS_sample : LAYOUTS_t :=
  {| HORIZONTAL_FILMSTRIP_VIEW := "horizontal-filmstrip-view";
     TILE_VIEW := "tile-view";
     VERTICAL_FILMSTRIP_VIEW := "vertical-filmstrip-view" |}.

(** ** clsx *)

(** [clsx(...args)] of the npm package: the truthy string arguments joined
    by single spaces; [undefined], booleans and values without enumerable
    truthy members contribute nothing. *)
Definition toVal (v : JSValue) : string :=
  match v with
  | VString s => s
  | _ => ""
  end.

Fixpoint clsx_from (str : string) (args : list JSValue) : string :=
  match args with
  | [] => str
  | tmp :: rest =>
    if truthy tmp then
      let x := toVal tmp in
      if String.eqb x "" then clsx_from str rest
      else clsx_from ((if String.eqb str "" then str else str ++ " ") ++ x) rest
    else clsx_from str rest
  end.

Definition clsx (args : list JSValue) : string := clsx_from "" args.

(** ** Props and state *)

Section Component.

Context {number : Type}.

(** The props [AbstractConference] contributes that this file reads. *)
Record AbstractProps : Type := {
  _notificationsVisible : bool;
  _shouldDisplayTileView : bool
}.

(** The [Props] of [Conference]; [_layoutClassName] holds whatever the
    table lookup returned, [_backgroundAlpha] is [None] when undefined. *)
Record Props : Type := {
  abstractProps : AbstractProps;
  _backgroundAlpha : option number;
  _layoutClassName : JSValue;
  _mouseMoveCallbackInterval : option number;
  _overflowDrawer : bool;
  _roomName : string;
  _showLobby : bool;
  _showPrejoin : bool;
  _showStageFilmstrip : bool
}.

(** What [_mapStateToProps] reads off the Redux state: two entries of
    [features/base/config], one of [features/toolbox], and the results of
    the selectors imported from the other features. *)
Record State : Type := {
  backgroundAlpha : option number;
  mouseMoveCallbackInterval : option number;
  overflowDrawer : bool;
  abstractMapStateToProps : AbstractProps;
  getCurrentLayout : Primitive;
  getConferenceNameForTitle : string;
  getIsLobbyVisible : bool;
  isPrejoinPageVisible : bool;
  shouldDisplayStageFilmstrip : bool
}.

Definition _mapStateToProps (LAYOUTS : LAYOUTS_t) (state : State) : Completion Props :=
  Normal {|
    abstractProps := abstractMapStateToProps state;
    _backgroundAlpha := backgroundAlpha state;
    _layoutClassName := layoutClassName LAYOUTS (getCurrentLayout state);
    _mouseMoveCallbackInterval := mouseMoveCallbackInterval state;
    _overflowDrawer := overflowDrawer state;
    _roomName := getConferenceNameForTitle state;
    _showLobby := getIsLobbyVisible state;
    _showPrejoin := isPrejoinPageVisible state;
    _showStageFilmstrip := shouldDisplayStageFilmstrip state
  |}.

(** ** React elements *)

(** The components [render] instantiates. *)
Inductive ComponentType : Type :=
  | Chat | ConferenceInfo | Notice | LargeVideo | StageFilmstrip
  | MainFilmstrip | Toolbox | JitsiPortal | CalleeInfoContainer
  | Prejoin | LobbyScreen | ParticipantsPane.

Global Instance ComponentType_eq_dec : EqDecision ComponentType.
Proof. solve_decision. Defined.

Inductive ElementType : Type :=
  | Host (tag : string)
  | Comp (c : ComponentType).

(** The methods of the class used as callbacks, and the three ways the
    constructor leaves them: as declared, bound to the instance, or
    wrapped by [_.throttle] (leading edge only). *)
Inductive Method : Type :=
  | m_onFullScreenChange | m_onMouseEnter | m_onMouseLeave | m_onMouseMove
  | m_onShowToolbar | m_onVidespaceTouchStart | m_setBackground.

Inductive Callback : Type :=
  | Declared (m : Method)
  | Bound (m : Method)
  | Throttled (m : Method).

Inductive AttrValue : Type :=
  | AString (s : string)
  | ABool (b : bool)
  | ACallback (c : Callback)
  | AUndefined.

(** A child of a JSX element: a boolean (React renders nothing for it),
    an element, or the node returned by the inherited
    method [renderNotificationsContainer] called with the given argument
    ([None] for a call without arguments); that method is defined in
    [AbstractConference] and its result is kept uninterpreted. *)
#[warnings="-register-all"]
Inductive ReactNode : Type :=
  | RBool (b : bool)
  | RElement (type : ElementType) (attrs : list (string * AttrValue))
             (children : list ReactNode)
  | RNotificationsContainer (arg : option (list (string * AttrValue))).

(** [flag && node] and [flag || node] for a boolean left operand. *)
Definition and_node (flag : bool) (node : ReactNode) : ReactNode :=
  if flag then node else RBool false.

Definition or_node (flag : bool) (node : ReactNode) : ReactNode :=
  if flag then RBool true else node.

Definition component (c : ComponentType) : ReactNode := RElement (Comp c) [] [].

(** ** The instance *)

Record Conference : Type := {
  props : Props;
  _onFullScreenChange : Callback;
  _onMouseEnter : Callback;
  _onMouseLeave : Callback;
  _onMouseMove : Callback;
  _onShowToolbar : Callback;
  _onVidespaceTouchStart : Callback;
  _setBackground_ref : Callback
}.

Definition constructor (p : Props) : Conference :=
  {| props := p;
     _onFullScreenChange := Bound m_onFullScreenChange;
     _onMouseEnter := Declared m_onMouseEnter;
     _onMouseLeave := Declared m_onMouseLeave;
     _onMouseMove := Throttled m_onMouseMove;
     _onShowToolbar := Throttled m_onShowToolbar;
     _onVidespaceTouchStart := Bound m_onVidespaceTouchStart;
     _setBackground_ref := Bound m_setBackground |}.

(** ** render *)

(** The children of [#videoconference_page], in source order. *)
Definition videoconference_page_children (this : Conference) : list ReactNode :=
  let p := props this in
  [ component ConferenceInfo;
    component Notice;
    RElement (Host "div")
      [ ("id", AString "videospace");
        ("onTouchStart", ACallback (_onVidespaceTouchStart this)) ]
      [ component LargeVideo;
        and_node (_showStageFilmstrip p) (component StageFilmstrip);
        component MainFilmstrip ];
    or_node (_showPrejoin p) (or_node (_showLobby p) (component Toolbox));
    and_node (_notificationsVisible (abstractProps p))
      (if _overflowDrawer p
       then RElement (Comp JitsiPortal)
              [ ("className", AString "notification-portal") ]
              [ RNotificationsContainer (Some [ ("portal", ABool true) ]) ]
       else RNotificationsContainer None);
    component CalleeInfoContainer;
    and_node (_showPrejoin p) (component Prejoin);
    and_node (_showLobby p) (component LobbyScreen) ].

(** [render]; [isMobileBrowser] is the result of the environment check
    made while rendering. *)
Definition render (isMobileBrowser : bool) (this : Conference) : ReactNode :=
  let p := props this in
  RElement (Host "div")
    [ ("id", AString "layout_wrapper");
      ("onMouseEnter", ACallback (_onMouseEnter this));
      ("onMouseLeave", ACallback (_onMouseLeave this));
      ("onMouseMove", ACallback (_onMouseMove this)) ]
    [ component Chat;
      RElement (Host "div")
        [ ("className",
           AString (clsx [ _layoutClassName p;
                           if _showStageFilmstrip p
                           then VString "stage-filmstrip" else VBool false ]));
          ("id", AString "videoconference_page");
          ("onMouseMove",
           if isMobileBrowser then AUndefined
           else ACallback (_onShowToolbar this));
          ("ref", ACallback (_setBackground_ref this)) ]
        (videoconference_page_children this);
      component ParticipantsPane ].

(** ** Reading a rendered tree *)

(** The components mounted by a tree, in document order. Booleans mount
    nothing; the node of the inherited notifications method is not looked
    into. *)
Fixpoint mounted (n : ReactNode) : list ComponentType :=
  match n with
  | RElement (Comp c) _ children => c :: flat_map mounted children
  | RElement (Host _) _ children => flat_map mounted children
  | _ => []
  end.

Definition shows (c : ComponentType) (n : ReactNode) : bool :=
  bool_decide (c ∈ mounted n).

(** Where the notifications container sits: directly in the page
    ([Inline]) or below a [JitsiPortal] ([Overlay]). *)
Inductive Placement : Type :=
  | Inline
  | Overlay.

Fixpoint notifications (inPortal : bool) (n : ReactNode) : list Placement :=
  match n with
  | RNotificationsContainer _ => [ if inPortal then Overlay else Inline ]
  | RElement (Comp JitsiPortal) _ children =>
    flat_map (notifications true) children
  | RElement _ _ children => flat_map (notifications inPortal) children
  | _ => []
  end.

Definition notificationPlacement (n : ReactNode) : option Placement :=
  head (notifications false n).

Fixpoint attr (name : string) (attrs : list (string * AttrValue)) : option AttrValue :=
  match attrs with
  | [] => None
  | (k, v) :: rest => if String.eqb k name then Some v else attr name rest
  end.

Definition has_id (i : string) (attrs : list (string * AttrValue)) : bool :=
  match attr "id" attrs with
  | Some (AString s) => String.eqb s i
  | _ => false
  end.

(** The first element, in document order, whose [id] is [i]. *)
Fixpoint getElementById (i : string) (n : ReactNode) : option ReactNode :=
  match n with
  | RElement _ attrs children =>
    if has_id i attrs then Some n
    else
      (fix first (l : list ReactNode) : option ReactNode :=
         match l with
         | [] => None
         | c :: rest =>
           match getElementById i c with
           | Some e => Some e
           | None => first rest
           end
         end) children
  | _ => None
  end.

Definition className (n : ReactNode) : option AttrValue :=
  match n with
  | RElement _ attrs _ => attr "className" attrs
  | _ => None
  end.

(** What a rendered tree decides about the screen: which of the prejoin
    screen, the lobby screen and the toolbox are mounted, whether the
    stage filmstrip is, where notifications go, and the class of the
    page element. *)
Record ScreenViewModel : Type := {
  prejoinShown : bool;
  lobbyShown : bool;
  toolboxShown : bool;
  stageFilmstripShown : bool;
  notificationsAt : option Placement;
  pageClassName : option AttrValue
}.

Definition viewModel (n : ReactNode) : ScreenViewModel :=
  {| prejoinShown := shows Prejoin n;
     lobbyShown := shows LobbyScreen n;
     toolboxShown := shows Toolbox n;
     stageFilmstripShown := shows StageFilmstrip n;
     notificationsAt := notificationPlacement n;
     pageClassName := getElementById "videoconference_page" n ≫= className |}.

(** What [reactReduxConnect(_mapStateToProps)] sets up, read as a view
    model: props from the state, an instance, its rendering. *)
Definition resolve (LAYOUTS : LAYOUTS_t) (isMobileBrowser : bool) (state : State)
    : Completion ScreenViewModel :=
  match _mapStateToProps LAYOUTS state with
  | Normal p => Normal (viewModel (render isMobileBrowser (constructor p)))
  | Throw e => Throw e
  end.

End Component.

Arguments Props : clear implicits.
Arguments State : clear implicits.
Arguments Conference : clear implicits.

(** ** The background opacity *)

Module Util.
Section SetColorAlpha.

Context {number : Type}.

(** A color specification: its alpha, when it has one, and the rest. *)
Record ColorSpec (Rest : Type) : Type := {
  rest : Rest;
  alpha : option number
}.

Arguments rest {Rest} c.
Arguments alpha {Rest} c.

Definition with_alpha {Rest} (c : ColorSpec Rest) (opacity : number) : ColorSpec Rest :=
  {| rest := rest c; alpha := Some opacity |}.

Variable Rest : Type.

(** Reading a color string ([None] when it is not a parseable color
    representation) and writing one. *)
Variable parseColor : string → option (ColorSpec Rest).
Variable printColor : ColorSpec Rest → string.

(** Modelled from the spec: [setColorAlpha] of [features/base/util], which
    [Conference.js] imports and which is not among the sources. Given a
    color string and an alpha value it produces the adjusted color string,
    preserving the rest of the color specification; an input that is not a
    parseable color representation is left unchanged. *)
Definition setColorAlpha (color : string) (opacity : number) : string :=
  match parseColor color with
  | Some c => printColor (with_alpha c opacity)
  | None => color
  end.

End SetColorAlpha.

Arguments ColorSpec : clear implicits.
Arguments rest {number Rest} c.
Arguments alpha {number Rest} c.
Arguments setColorAlpha {number Rest} parseColor printColor color opacity.
End Util.

(** A DOM element as [_setBackground] sees it: [style.background], held
    as the string last assigned to it, and [parentElement], a reference
    into the document or null. *)
Record Element : Type := {
  style_background : string;
  parentElement : option nat
}.

Definition set_style_background (value : string) (e : Element) : Element :=
  {| style_background := value; parentElement := parentElement e |}.

Section Background.

Context {number : Type}.

(** The imported [setColorAlpha]. *)
Variable setColorAlpha : string → number → string.

(** [_setBackground(element)] on the document [dom]: elements are
    referenced by their key in [dom], and [None] is a null [element].
    The result is the document after the call; it is [None] only when a
    reference points outside [dom], which no live element does. *)
Definition _setBackground (this : Conference number) (element : option nat)
    (dom : gmap nat Element) : option (gmap nat Element) :=
  match element with
  | None => Some dom
  | Some el =>
    match _backgroundAlpha (props this) with
    | None => Some dom
    | Some backgroundAlpha =>
      e ← dom !! el;
      let elemColor := style_background e in
      let alphaElemColor := setColorAlpha elemColor backgroundAlpha in
      let dom1 := <[el := set_style_background alphaElemColor e]> dom in
      match parentElement e with
      | None => Some dom1
      | Some parent =>
        pe ← dom1 !! parent;
        let parentColor := style_background pe in
        let alphaParentColor := setColorAlpha parentColor backgroundAlpha in
        Some (<[parent := set_style_background alphaParentColor pe]> dom1)
      end
    end
  end.

End Background.

(** A document in which every [parentElement] references an element of
    the document. *)
Definition closed (dom : gmap nat Element) : Prop :=
  ∀ ref e parent,
    dom !! ref = Some e → parentElement e = Some parent → is_Some (dom !! parent).

(** ** The life cycle *)

Global Instance Method_eq_dec : EqDecision Method.
Proof. solve_decision. Defined.

Global Instance Callback_eq_dec : EqDecision Callback.
Proof. solve_decision. Defined.

Definition FULL_SCREEN_EVENTS : list string :=
  [ "webkitfullscreenchange"; "mozfullscreenchange"; "fullscreenchange" ].

(** The actions the component dispatches; their creators are imported. *)
Inductive Action : Type :=
  | connect
  | disconnect
  | fullScreenChanged (fullScreen : bool)
  | showToolbox
  | toggleToolboxVisible.

(** The calls the component makes to its collaborators. Mouse events are
    referenced like DOM elements. *)
Inductive Call : Type :=
  | APP_UI_start
  | APP_UI_registerListeners
  | APP_UI_bindEvents
  | APP_UI_unbindEvents
  | APP_API_notifyMouseEnter (event : nat)
  | APP_API_notifyMouseLeave (event : nat)
  | APP_API_notifyMouseMove (event : nat)
  | VideoLayout_refreshLayout
  | dispatch (action : Action)
  | maybeShowSuboptimalExperienceNotification.

Global Instance Action_eq_dec : EqDecision Action.
Proof. solve_decision. Defined.

Global Instance Call_eq_dec : EqDecision Call.
Proof. solve_decision. Defined.

(** A function object registered as a listener: the callback of one
    instance, [owner] being the identity of that instance. *)
Record Listener : Type := {
  owner : nat;
  callback : Callback
}.

Global Instance Listener_eq_dec : EqDecision Listener.
Proof. solve_decision. Defined.

(** What the life cycle acts on: the title of the document, the event
    listener list of the document (type and listener, in order of
    registration) and the calls made so far, oldest first. *)
Record World : Type := {
  document_title : string;
  document_listeners : list (string * Listener);
  calls : list Call
}.

Definition call (c : Call) (w : World) : World :=
  {| document_title := document_title w;
     document_listeners := document_listeners w;
     calls := (calls w ++ [ c ])%list |}.

Definition set_title (title : string) (w : World) : World :=
  {| document_title := title;
     document_listeners := document_listeners w;
     calls := calls w |}.

Definition set_listeners (ls : list (string * Listener)) (w : World) : World :=
  {| document_title := document_title w;
     document_listeners := ls;
     calls := calls w |}.

(** [addEventListener] appends unless the same type and listener are
    registered already; [removeEventListener] removes the registration it
    finds, if any. *)
Definition add_listener (entry : string * Listener)
    (ls : list (string * Listener)) : list (string * Listener) :=
  if bool_decide (entry ∈ ls) then ls else (ls ++ [ entry ])%list.

Fixpoint remove_listener (entry : string * Listener)
    (ls : list (string * Listener)) : list (string * Listener) :=
  match ls with
  | [] => []
  | x :: rest =>
    if bool_decide (x = entry) then rest else x :: remove_listener entry rest
  end.

Definition addEventListener (type : string) (l : Listener) (w : World) : World :=
  set_listeners (add_listener (type, l) (document_listeners w)) w.

Definition removeEventListener (type : string) (l : Listener) (w : World) : World :=
  set_listeners (remove_listener (type, l) (document_listeners w)) w.

(** One listener registered, or removed, for each of a list of types, as
    the [forEach] loops over [FULL_SCREEN_EVENTS] do. *)
Definition add_listeners (l : Listener) (types : list string)
    (ls : list (string * Listener)) : list (string * Listener) :=
  fold_left (λ ls type, add_listener (type, l) ls) types ls.

Definition remove_listeners (l : Listener) (types : list string)
    (ls : list (string * Listener)) : list (string * Listener) :=
  fold_left (λ ls type, remove_listener (type, l) ls) types ls.

(** A collaborator that neither registers nor removes the listener [l]:
    it holds no reference to that function object. *)
Definition keeps_listener (collaborator : Call → World → World) (l : Listener) : Prop :=
  ∀ c w entry,
    entry.2 = l →
    entry ∈ document_listeners (collaborator c w) ↔ entry ∈ document_listeners w.

(** A collaborator that, going through [addEventListener] and
    [removeEventListener] itself, keeps the listener list free of
    duplicates. *)
Definition keeps_unique (collaborator : Call → World → World) : Prop :=
  ∀ c w,
    NoDup (document_listeners w) → NoDup (document_listeners (collaborator c w)).

(** The registrations of listener [l] for one of [types]. *)
Definition registers (l : Listener) (types : list string)
    (entry : string * Listener) : Prop :=
  entry.2 = l ∧ entry.1 ∈ types.

Global Instance registers_dec l types entry : Decision (registers l types entry).
Proof. unfold registers. apply _. Defined.

(** The event handlers; of their calls only the call is recorded. *)
Module Handlers.

Definition _onVidespaceTouchStart (w : World) : World :=
  call (dispatch toggleToolboxVisible) w.

(** [isFullScreen] is what [APP.UI.isFullScreen()] answers. *)
Definition _onFullScreenChange (isFullScreen : bool) (w : World) : World :=
  call (dispatch (fullScreenChanged isFullScreen)) w.

Definition _onMouseEnter (event : nat) (w : World) : World :=
  call (APP_API_notifyMouseEnter event) w.

Definition _onMouseLeave (event : nat) (w : World) : World :=
  call (APP_API_notifyMouseLeave event) w.

Definition _onMouseMove (event : nat) (w : World) : World :=
  call (APP_API_notifyMouseMove event) w.

Definition _onShowToolbar (w : World) : World :=
  call (dispatch showToolbox) w.

End Handlers.

Section LifeCycle.

Context {number : Type}.

(** The listener an instance registers for full screen changes: its own
    [_onFullScreenChange] field. *)
Definition fullScreenListener (self : nat) (this : Conference number) : Listener :=
  {| owner := self; callback := _onFullScreenChange this |}.

(** What a collaborator does to the world when it is called: the legacy
    UI layer behind [APP.UI], the store behind [dispatch] and the
    notification helper are outside this file, and the legacy layer
    registers event listeners of its own. *)
Variable collaborator : Call → World → World.

(** A call to a collaborator: it is recorded, then it takes effect. *)
Definition external (c : Call) (w : World) : World :=
  collaborator c (call c w).

Definition _start (self : nat) (this : Conference number) (w : World) : World :=
  let w := external APP_UI_start w in
  let w := external APP_UI_registerListeners w in
  let w := external APP_UI_bindEvents w in
  let w := fold_left
             (λ w name, addEventListener name (fullScreenListener self this) w)
             FULL_SCREEN_EVENTS w in
  let w := external (dispatch connect) w in
  external maybeShowSuboptimalExperienceNotification w.

(** [APP_NAME] is [interfaceConfig.APP_NAME]. *)
Definition componentDidMount (APP_NAME : string) (self : nat)
    (this : Conference number) (w : World) : World :=
  _start self this (set_title (_roomName (props this) ++ " | " ++ APP_NAME) w).

(** Of [VideoLayout.refreshLayout] only the call is recorded. *)
Definition componentDidUpdate (this : Conference number)
    (prevProps : Props number) (w : World) : World :=
  if Bool.eqb (_shouldDisplayTileView (abstractProps (props this)))
              (_shouldDisplayTileView (abstractProps prevProps))
  then w
  else call VideoLayout_refreshLayout w.

(** [isJoined] is what [APP.conference.isJoined()] answers. *)
Definition componentWillUnmount (isJoined : bool) (self : nat)
    (this : Conference number) (w : World) : World :=
  let w := external APP_UI_unbindEvents w in
  let w := fold_left
             (λ w name, removeEventListener name (fullScreenListener self this) w)
             FULL_SCREEN_EVENTS w in
  if isJoined then external (dispatch disconnect) w else w.

(** React gives an instance new props and then calls
    [componentDidUpdate] with the former ones; the fields set by the
    constructor stay. *)
Definition receive (p : Props number) (this : Conference number) : Conference number :=
  {| props := p;
     _onFullScreenChange := _onFullScreenChange this;
     _onMouseEnter := _onMouseEnter this;
     _onMouseLeave := _onMouseLeave this;
     _onMouseMove := _onMouseMove this;
     _onShowToolbar := _onShowToolbar this;
     _onVidespaceTouchStart := _onVidespaceTouchStart this;
     _setBackground_ref := _setBackground_ref this |}.

Fixpoint updates (next : list (Props number)) (this : Conference number)
    (w : World) : Conference number * World :=
  match next with
  | [] => (this, w)
  | p :: rest =>
    let this' := receive p this in
    updates rest this' (componentDidUpdate this' (props this) w)
  end.

(** The changes of [_shouldDisplayTileView] along a sequence of props. *)
Fixpoint flips (current : bool) (next : list bool) : nat :=
  match next with
  | [] => 0
  | b :: rest => (if Bool.eqb b current then 0 else 1) + flips b rest
  end.

End LifeCycle.

(** How often [VideoLayout.refreshLayout] has been called. *)
Definition refreshes (w : World) : nat :=
  length (filter (λ c, c = VideoLayout_refreshLayout) (calls w)).

(** The class tokens of a [className]: its maximal runs without a space. *)
Fixpoint tokens_from (current : string) (s : string) : list string :=
  match s with
  | EmptyString => if String.eqb current "" then [] else [ current ]
  | String c rest =>
    if String.eqb (String c "") " "
    then (if String.eqb current "" then [] else [ current ])
           ++ tokens_from "" rest
    else tokens_from (current ++ String c "") rest
  end%list.

Definition classList (s : string) : list string := tokens_from "" s.

(** ** Sample inputs *)

Module Sample.

(** Numbers are carried as their decimal text here. *)
Definition props_of (lobby prejoin drawer notifications stage : bool)
    (layout : JSValue) (alpha : option string) : Props string :=
  {| abstractProps := {| _notificationsVisible := notifications;
                         _shouldDisplayTileView := false |};
     _backgroundAlpha := alpha;
     _layoutClassName := layout;
     _mouseMoveCallbackInterval := Some "50";
     _overflowDrawer := drawer;
     _roomName := "room";
     _showLobby := lobby;
     _showPrejoin := prejoin;
     _showStageFilmstrip := stage |}.

Definition state_of (lobby prejoin drawer notifications : bool)
    (layout : Primitive) : State string :=
  {| backgroundAlpha := None;
     mouseMoveCallbackInterval := Some "50";
     overflowDrawer := drawer;
     abstractMapStateToProps := {| _notificationsVisible := notifications;
                                   _shouldDisplayTileView := false |};
     getCurrentLayout := layout;
     getConferenceNameForTitle := "room";
     getIsLobbyVisible := lobby;
     isPrejoinPageVisible := prejoin;
     shouldDisplayStageFilmstrip := false |}.

(** Colors in the functional notation [rgb(R G B)] and [rgb(R G B / A)]:
    the rest is the text of the channels, the alpha the text after the
    slash. *)
Definition ends_with (suffix s : string) : bool :=
  String.eqb
    (String.substring (String.length s - String.length suffix)
       (String.length suffix) s)
    suffix.

Definition parseColor (s : string) : option (Util.ColorSpec string string) :=
  if String.prefix "rgb(" s && ends_with ")" s then
    let inner := String.substring 4 (String.length s - 5) s in
    match String.index 0 " / " inner with
    | Some i =>
      Some {| Util.rest := String.substring 0 i inner;
              Util.alpha :=
                Some (String.substring (i + 3) (String.length inner - (i + 3)) inner) |}
    | None => Some {| Util.rest := inner; Util.alpha := None |}
    end
  else None.

Definition printColor (c : Util.ColorSpec string string) : string :=
  "rgb(" ++ Util.rest c
    ++ match Util.alpha c with Some a => " / " ++ a | None => "" end
    ++ ")".

(** A page element (reference 1) below its parent (reference 0). *)
Definition dom : gmap nat Element :=
  <[1 := {| style_background := "rgb(255 255 255)"; parentElement := Some 0 |}]>
    (<[0 := {| style_background := "rgb(4 4 4 / 1)"; parentElement := None |}]> ∅).

End Sample.

Module SampleRun.

(** A world in which another instance has registered a listener. *)
Definition world : World :=
  {| document_title := "";
     document_listeners :=
       [ ("fullscreenchange",
          {| owner := 7; callback := Bound m_onFullScreenChange |}) ];
     calls := [] |}.

Definition this : Conference string :=
  constructor
    (Sample.props_of false false false true false (VString "tile-view")
       (Some "0.5")).

Definition setColorAlpha : string → string → string :=
  Util.setColorAlpha Sample.parseColor Sample.printColor.

(** An element and its parent whose backgrounds are not colors. *)
Definition plain : gmap nat Element :=
  <[1 := {| style_background := "not-a-color"; parentElement := Some 0 |}]>
    (<[0 := {| style_background := "inherit"; parentElement := None |}]> ∅).

(** An element with a color below a parent whose background is unset. *)
Definition unset_parent : gmap nat Element :=
  <[1 := {| style_background := "rgb(255 255 255)"; parentElement := Some 0 |}]>
    (<[0 := {| style_background := ""; parentElement := None |}]> ∅).

(** A legacy UI layer that registers a full screen listener of its own
    in [bindEvents] and removes it in [unbindEvents]; the other
    collaborators leave the document alone. *)
Definition legacy_listener : Listener :=
  {| owner := 0; callback := Declared m_onFullScreenChange |}.

Definition collaborator (c : Call) (w : World) : World :=
  match c with
  | APP_UI_bindEvents => addEventListener "fullscreenchange" legacy_listener w
  | APP_UI_unbindEvents => removeEventListener "fullscreenchange" legacy_listener w
  | _ => w
  end.

End SampleRun.

(** * Properties *)

(** ** What [render] mounts *)

Section Render.

Context {number : Type}.
Implicit Types (this : Conference number) (isMobileBrowser : bool).

(** The components of a rendering, in document order. *)
Lemma mounted_render isMobileBrowser this :
  mounted (render isMobileBrowser this) =
   ([ Chat; ConferenceInfo; Notice; LargeVideo ]
    ++ (if _showStageFilmstrip (props this) then [ StageFilmstrip ] else [])
    ++ [ MainFilmstrip ]
    ++ (if _showPrejoin (props this) || _showLobby (props this)
        then [] else [ Toolbox ])
    ++ (if _notificationsVisible (abstractProps (props this))
           && _overflowDrawer (props this)
        then [ JitsiPortal ] else [])
    ++ [ CalleeInfoContainer ]
    ++ (if _showPrejoin (props this) then [ Prejoin ] else [])
    ++ (if _showLobby (props this) then [ LobbyScreen ] else [])
    ++ [ ParticipantsPane ])%list.
Proof.
  unfold render, videoconference_page_children.
  destruct (_showStageFilmstrip _), (_showPrejoin _), (_showLobby _),
    (_notificationsVisible _), (_overflowDrawer _); reflexivity.
Qed.

Ltac by_flags this :=
  unfold shows; rewrite mounted_render;
  destruct (_showStageFilmstrip (props this)), (_showPrejoin (props this)),
    (_showLobby (props this)),
    (_notificationsVisible (abstractProps (props this))),
    (_overflowDrawer (props this));
  try discriminate; repeat split; reflexivity.

(** C1, as amended: when [_showPrejoin] is true the Prejoin screen is
    mounted whatever [_showLobby] is, and the Lobby screen is mounted
    exactly when [_showLobby] is true; with both flags true both screens
    are mounted, Prejoin first. *)
Theorem prejoin_mounted_lobby_follows_flag isMobileBrowser this :
  _showPrejoin (props this) = true →
  shows Prejoin (render isMobileBrowser this) = true
  ∧ shows LobbyScreen (render isMobileBrowser this) = _showLobby (props this)
  ∧ filter (λ c, c = Prejoin ∨ c = LobbyScreen)
      (mounted (render isMobileBrowser this))
    = Prejoin :: (if _showLobby (props this) then [ LobbyScreen ] else []).
Proof.
  intros Hpre. unfold shows. rewrite mounted_render, Hpre.
  destruct (_showStageFilmstrip (props this)), (_showLobby (props this)),
    (_notificationsVisible (abstractProps (props this))),
    (_overflowDrawer (props this)); repeat split; reflexivity.
Qed.

(** C2: the Toolbox is mounted if and only if both [_showPrejoin] and
    [_showLobby] are false. *)
Theorem toolbox_iff_neither_prejoin_nor_lobby isMobileBrowser this :
  shows Toolbox (render isMobileBrowser this)
  = negb (_showPrejoin (props this) || _showLobby (props this)).
Proof. by_flags this. Qed.

(** C3: notifications are placed in the portal (Overlay) when
    [_notificationsVisible] and [_overflowDrawer] are both true, inline
    when [_notificationsVisible] is true and [_overflowDrawer] false, and
    no notifications container is rendered when [_notificationsVisible] is
    false, whatever [_overflowDrawer] is. *)
Theorem notification_placement isMobileBrowser this :
  let visible := _notificationsVisible (abstractProps (props this)) in
  let drawer := _overflowDrawer (props this) in
  notifications false (render isMobileBrowser this)
    = (if visible then [ if drawer then Overlay else Inline ] else [])
  ∧ notificationPlacement (render isMobileBrowser this)
    = (if visible then Some (if drawer then Overlay else Inline) else None)
  ∧ videoconference_page_children this !! 4
    = Some (if visible
            then if drawer
                 then RElement (Comp JitsiPortal)
                        [ ("className", AString "notification-portal") ]
                        [ RNotificationsContainer (Some [ ("portal", ABool true) ]) ]
                 else RNotificationsContainer None
            else RBool false).
Proof.
  unfold notificationPlacement, render, videoconference_page_children.
  destruct (_showStageFilmstrip (props this)), (_showPrejoin (props this)),
    (_showLobby (props this)),
    (_notificationsVisible (abstractProps (props this))),
    (_overflowDrawer (props this)); repeat split; reflexivity.
Qed.

(** C6, as amended: the CalleeInfoContainer is mounted by every
    rendering, whatever the prejoin and lobby flags are (it is the sixth
    child of the page element, unconditionally); while the prejoin or
    the lobby flag is true it is the Toolbox that is suppressed, being
    mounted exactly when both flags are false. *)
Theorem callee_info_always_mounted isMobileBrowser this :
  shows CalleeInfoContainer (render isMobileBrowser this) = true
  ∧ videoconference_page_children this !! 5 = Some (component CalleeInfoContainer)
  ∧ shows Toolbox (render isMobileBrowser this)
    = negb (_showPrejoin (props this) || _showLobby (props this)).
Proof. split; [ by_flags this | ]. split; [ reflexivity | by_flags this ]. Qed.

(** C7: when [_showPrejoin] and [_showLobby] are both false, neither the
    Prejoin screen nor the Lobby screen is mounted and the Toolbox is. *)
Theorem main_conference_when_no_prejoin_no_lobby isMobileBrowser this :
  _showPrejoin (props this) = false →
  _showLobby (props this) = false →
  shows Prejoin (render isMobileBrowser this) = false
  ∧ shows LobbyScreen (render isMobileBrowser this) = false
  ∧ shows Toolbox (render isMobileBrowser this) = true.
Proof.
  intros Hpre Hlobby. unfold shows. rewrite mounted_render, Hpre, Hlobby.
  destruct (_showStageFilmstrip (props this)),
    (_notificationsVisible (abstractProps (props this))),
    (_overflowDrawer (props this)); repeat split; reflexivity.
Qed.

End Render.

(** ** The layout table *)

Section Layout.

Variable LAYOUTS : LAYOUTS_t.

Lemma of_mode_expected (m : LayoutMode) :
  distinct_keys LAYOUTS → of_mode LAYOUTS m = VString (class_of_mode m).
Proof.
  intros (Hht & Hhv & Htv).
  unfold of_mode, layoutClassName, get, LAYOUT_CLASSNAMES.
  destruct m; simpl.
  - rewrite lookup_insert_ne, lookup_insert_ne, lookup_insert_eq by congruence.
    reflexivity.
  - rewrite lookup_insert_ne, lookup_insert_eq by congruence. reflexivity.
  - rewrite lookup_insert_eq. reflexivity.
Qed.

(** A key that is none of the three has no own property in the table. *)
Lemma LAYOUT_CLASSNAMES_lookup_other (k : string) :
  k ≠ HORIZONTAL_FILMSTRIP_VIEW LAYOUTS →
  k ≠ TILE_VIEW LAYOUTS →
  k ≠ VERTICAL_FILMSTRIP_VIEW LAYOUTS →
  LAYOUT_CLASSNAMES LAYOUTS !! k = None.
Proof.
  intros Hh Ht Hv. unfold LAYOUT_CLASSNAMES.
  rewrite !lookup_insert_ne by congruence. apply lookup_empty.
Qed.

(** C4: with the three keys of [LAYOUTS] distinct, the lookup sends
    HorizontalFilmstrip to "horizontal-filmstrip", TileView to "tile-view"
    and VerticalFilmstrip to "vertical-filmstrip"; equal modes give equal
    strings, different modes give different strings, and every mode gives
    a non-empty string. *)
Theorem layoutClassName_of_mode :
  distinct_keys LAYOUTS →
  (of_mode LAYOUTS HorizontalFilmstrip = VString "horizontal-filmstrip"
   ∧ of_mode LAYOUTS TileView = VString "tile-view"
   ∧ of_mode LAYOUTS VerticalFilmstrip = VString "vertical-filmstrip")
  ∧ (∀ m1 m2, m1 = m2 → of_mode LAYOUTS m1 = of_mode LAYOUTS m2)
  ∧ (∀ m1 m2, m1 ≠ m2 → of_mode LAYOUTS m1 ≠ of_mode LAYOUTS m2)
  ∧ (∀ m, ∃ s, of_mode LAYOUTS m = VString s ∧ s ≠ "").
Proof.
  intros Hkeys.
  repeat split.
  - by apply (of_mode_expected HorizontalFilmstrip).
  - by apply (of_mode_expected TileView).
  - by apply (of_mode_expected VerticalFilmstrip).
  - by intros m1 m2 ->.
  - intros m1 m2 Hne. rewrite !of_mode_expected by done.
    destruct m1, m2; simpl; congruence.
  - intros m. exists (class_of_mode m). split.
    + by apply of_mode_expected.
    + destruct m; discriminate.
Qed.

Context {number : Type}.

(** C5, as amended: for a layout value that is none of the three keys
    and not the name of a member of [Object.prototype], the lookup raises
    no error: it yields [undefined], which [_mapStateToProps] returns to
    its caller as [_layoutClassName] and which adds no class to the page
    element. *)
Theorem unknown_layout_yields_undefined (state : State number) :
  let k := ToPropertyKey (getCurrentLayout state) in
  k ≠ HORIZONTAL_FILMSTRIP_VIEW LAYOUTS →
  k ≠ TILE_VIEW LAYOUTS →
  k ≠ VERTICAL_FILMSTRIP_VIEW LAYOUTS →
  k ∉ Object_prototype →
  ∃ p, _mapStateToProps LAYOUTS state = Normal p
       ∧ _layoutClassName p = VUndefined
       ∧ ∀ isMobileBrowser,
           pageClassName (viewModel (render isMobileBrowser (constructor p)))
           = Some (AString (if shouldDisplayStageFilmstrip state
                            then "stage-filmstrip" else "")).
Proof.
  intros k Hh Ht Hv Hproto.
  eexists. split; [ reflexivity | ]. simpl.
  assert (layoutClassName LAYOUTS (getCurrentLayout state) = VUndefined) as ->.
  { unfold layoutClassName, get. fold k.
    rewrite LAYOUT_CLASSNAMES_lookup_other by done.
    by rewrite bool_decide_eq_false_2. }
  split; [ done | ].
  intros isMobileBrowser. by destruct (shouldDisplayStageFilmstrip state).
Qed.

(** C9: two resolutions of structurally equal states give structurally
    equal view models, also when the environment check of [render]
    differs between them; with the same environment the whole rendered
    trees are equal. *)
Theorem resolve_deterministic (isMobileBrowser1 isMobileBrowser2 : bool)
    (state1 state2 : State number) :
  state1 = state2 →
  resolve LAYOUTS isMobileBrowser1 state1 = resolve LAYOUTS isMobileBrowser2 state2
  ∧ (isMobileBrowser1 = isMobileBrowser2 →
     ∀ p1 p2,
       _mapStateToProps LAYOUTS state1 = Normal p1 →
       _mapStateToProps LAYOUTS state2 = Normal p2 →
       render isMobileBrowser1 (constructor p1)
       = render isMobileBrowser2 (constructor p2)).
Proof.
  intros <-. split.
  - unfold resolve. simpl. unfold viewModel, shows, notificationPlacement.
    rewrite !mounted_render. reflexivity.
  - intros <- p1 p2 H1 H2. congruence.
Qed.

End Layout.

(** ** The background opacity *)

Section SetBackground.

Context {number : Type}.
Implicit Types (this : Conference number) (dom : gmap nat Element).

(** [_setBackground] on an element with a parent, step by step. *)
Lemma setBackground_with_parent (setColorAlpha : string → number → string)
    this dom (el parent : nat) (e pe : Element) (a : number) :
  _backgroundAlpha (props this) = Some a →
  dom !! el = Some e →
  parentElement e = Some parent →
  parent ≠ el →
  dom !! parent = Some pe →
  _setBackground setColorAlpha this (Some el) dom
  = Some (<[parent := set_style_background (setColorAlpha (style_background pe) a) pe]>
            (<[el := set_style_background (setColorAlpha (style_background e) a) e]> dom)).
Proof.
  intros Halpha He Hparent Hne Hpe.
  unfold _setBackground. rewrite Halpha, He. simpl. rewrite Hparent.
  rewrite lookup_insert_ne by done. rewrite Hpe. reflexivity.
Qed.

(** A document changed by [_setBackground] was given both an element and
    a defined alpha. *)
Lemma setBackground_changes_only_with_both
    (setColorAlpha : string → number → string) this element dom dom' :
  _setBackground setColorAlpha this element dom = Some dom' →
  dom' ≠ dom →
  is_Some element ∧ is_Some (_backgroundAlpha (props this)).
Proof.
  unfold _setBackground. intros Hrun Hchanged.
  destruct element as [el|]; [ | congruence ].
  destruct (_backgroundAlpha (props this)) as [a|]; [ | congruence ].
  split; eexists; reflexivity.
Qed.

(** C10: called with a null element, or with [_backgroundAlpha]
    undefined, [_setBackground] leaves the document as it is: neither the
    element's background nor its parent's is written. *)
Theorem setBackground_without_element_or_alpha
    (setColorAlpha : string → number → string) this element dom :
  element = None ∨ _backgroundAlpha (props this) = None →
  _setBackground setColorAlpha this element dom = Some dom.
Proof.
  intros [-> | Halpha]; [ reflexivity | ].
  unfold _setBackground. rewrite Halpha. by destruct element.
Qed.

Context {Rest : Type}.
Variable parseColor : string → option (Util.ColorSpec number Rest).
Variable printColor : Util.ColorSpec number Rest → string.

(** C8: for an element whose background is a color, with a parent, and
    a defined alpha [a], [_setBackground] writes to the element and to
    its parent the former background of each adjusted by the same
    [setColorAlpha (..) a]. The element's new background is its former
    color with alpha [a] and the rest of the specification kept; so is
    the parent's when its background is a color, and a parent background
    that is not a color is written back as it was. Parent links and all
    other elements are unchanged. *)
Theorem setBackground_adjusts_element_and_parent
    this dom (el parent : nat) (e pe : Element)
    (ce : Util.ColorSpec number Rest) (a : number) :
  _backgroundAlpha (props this) = Some a →
  dom !! el = Some e →
  parentElement e = Some parent →
  parent ≠ el →
  dom !! parent = Some pe →
  parseColor (style_background e) = Some ce →
  ∃ dom' e' pe',
    _setBackground (Util.setColorAlpha parseColor printColor) this (Some el) dom
    = Some dom'
    ∧ dom' !! el = Some e' ∧ dom' !! parent = Some pe'
    ∧ style_background e'
      = Util.setColorAlpha parseColor printColor (style_background e) a
    ∧ style_background pe'
      = Util.setColorAlpha parseColor printColor (style_background pe) a
    ∧ style_background e'
      = printColor {| Util.rest := Util.rest ce; Util.alpha := Some a |}
    ∧ (∀ cp, parseColor (style_background pe) = Some cp →
         style_background pe'
         = printColor {| Util.rest := Util.rest cp; Util.alpha := Some a |})
    ∧ (parseColor (style_background pe) = None →
         style_background pe' = style_background pe)
    ∧ parentElement e' = parentElement e
    ∧ parentElement pe' = parentElement pe
    ∧ ∀ other, other ≠ el → other ≠ parent → dom' !! other = dom !! other.
Proof.
  intros Halpha He Hparent Hne Hpe Hce.
  eexists _, _, _. split.
  { by apply setBackground_with_parent. }
  split.
  { rewrite lookup_insert_ne by done. apply lookup_insert_eq. }
  split; [ apply lookup_insert_eq | ].
  simpl. unfold Util.setColorAlpha. rewrite Hce.
  split; [ done | ]. split; [ done | ]. split; [ done | ].
  split; [ by intros cp -> | ]. split; [ by intros -> | ].
  split; [ done | ]. split; [ done | ].
  intros other Hel Hpar. by rewrite !lookup_insert_ne.
Qed.

End SetBackground.

(** * The properties on sample inputs *)

(** Prejoin visible, notifications inline, tile view. *)
Example resolve_prejoin_inline_tile_view :
  resolve LAYOUTS_sample false
    (Sample.state_of false true false true (PString (TILE_VIEW LAYOUTS_sample)))
  = Normal {| prejoinShown := true; lobbyShown := false; toolboxShown := false;
              stageFilmstripShown := false; notificationsAt := Some Inline;
              pageClassName := Some (AString "tile-view") |}.
Proof. reflexivity. Qed.

(** Lobby visible, notifications in the drawer, horizontal filmstrip. *)
Example resolve_lobby_overlay_horizontal :
  resolve LAYOUTS_sample false
    (Sample.state_of true false true true
       (PString (HORIZONTAL_FILMSTRIP_VIEW LAYOUTS_sample)))
  = Normal {| prejoinShown := false; lobbyShown := true; toolboxShown := false;
              stageFilmstripShown := false; notificationsAt := Some Overlay;
              pageClassName := Some (AString "horizontal-filmstrip") |}.
Proof. reflexivity. Qed.

(** Neither screen, notifications hidden, vertical filmstrip. *)
Example resolve_main_conference_vertical :
  resolve LAYOUTS_sample false
    (Sample.state_of false false false false
       (PString (VERTICAL_FILMSTRIP_VIEW LAYOUTS_sample)))
  = Normal {| prejoinShown := false; lobbyShown := false; toolboxShown := true;
              stageFilmstripShown := false; notificationsAt := None;
              pageClassName := Some (AString "vertical-filmstrip") |}.
Proof. reflexivity. Qed.

(** A member of [Object.prototype] is found through the table. *)
Example layoutClassName_inherited :
  layoutClassName LAYOUTS_sample (PString "toString") = VBuiltin "toString".
Proof. reflexivity. Qed.

(** An input that is not a color passes through [setColorAlpha]. *)
Example setColorAlpha_not_a_color :
  Util.setColorAlpha Sample.parseColor Sample.printColor "not-a-color" "0.5"
  = "not-a-color".
Proof. reflexivity. Qed.

(** Both flags set: the rendering mounts the Prejoin screen and the Lobby
    screen together, so a set prejoin flag does not exclude the Lobby
    screen. *)
Lemma prejoin_does_not_exclude_lobby :
  let this := constructor
    (Sample.props_of true true false true false (VString "tile-view") None) in
  ¬ (_showPrejoin (props this) = true →
     shows Prejoin (render false this) = true
     ∧ shows LobbyScreen (render false this) = false).
Proof.
  intros this Hclaim. destruct (Hclaim eq_refl) as [_ Hlobby].
  vm_compute in Hlobby. discriminate Hlobby.
Qed.

Lemma prejoin_mounted_lobby_follows_flag_witness :
  let this := constructor
    (Sample.props_of true true false true false (VString "tile-view") None) in
  _showPrejoin (props this) = true
  ∧ (shows Prejoin (render false this) = true
     ∧ shows LobbyScreen (render false this) = _showLobby (props this)
     ∧ filter (λ c, c = Prejoin ∨ c = LobbyScreen) (mounted (render false this))
       = Prejoin :: (if _showLobby (props this) then [ LobbyScreen ] else [])).
Proof.
  intros this. split; [ reflexivity | ].
  apply (prejoin_mounted_lobby_follows_flag false this). reflexivity.
Defined.

Lemma layoutClassName_of_mode_witness :
  distinct_keys LAYOUTS_sample
  ∧ of_mode LAYOUTS_sample TileView = VString "tile-view"
  ∧ of_mode LAYOUTS_sample HorizontalFilmstrip ≠ of_mode LAYOUTS_sample VerticalFilmstrip.
Proof.
  assert (distinct_keys LAYOUTS_sample) as Hkeys.
  { repeat split; discriminate. }
  destruct (layoutClassName_of_mode LAYOUTS_sample Hkeys)
    as ((_ & Htile & _) & _ & Hdistinct & _).
  split; [ exact Hkeys | ]. split; [ exact Htile | ].
  apply Hdistinct. discriminate.
Defined.

(** A layout value outside the table: the lookup completes normally, no
    [UnknownLayout] reaches the caller. *)
Lemma unknown_layout_raises_nothing :
  let state := Sample.state_of false false false true (PString "grid-view") in
  ¬ ("grid-view" ≠ HORIZONTAL_FILMSTRIP_VIEW LAYOUTS_sample
     ∧ "grid-view" ≠ TILE_VIEW LAYOUTS_sample
     ∧ "grid-view" ≠ VERTICAL_FILMSTRIP_VIEW LAYOUTS_sample →
     _mapStateToProps LAYOUTS_sample state = Throw UnknownLayout).
Proof.
  intros state Hclaim.
  assert (_mapStateToProps LAYOUTS_sample state = Throw UnknownLayout) as Hthrow.
  { apply Hclaim. repeat split; discriminate. }
  discriminate Hthrow.
Qed.

Lemma unknown_layout_yields_undefined_witness :
  let state := Sample.state_of true false false true PUndefined in
  ∃ p, _mapStateToProps LAYOUTS_sample state = Normal p
       ∧ _layoutClassName p = VUndefined
       ∧ ∀ isMobileBrowser,
           pageClassName (viewModel (render isMobileBrowser (constructor p)))
           = Some (AString "").
Proof.
  intros state.
  apply (unknown_layout_yields_undefined LAYOUTS_sample state);
    try discriminate.
  apply (bool_decide_unpack _). vm_compute. exact I.
Defined.

(** The prejoin flag set: the CalleeInfoContainer is mounted all the
    same. *)
Lemma callee_info_not_suppressed :
  let this := constructor
    (Sample.props_of false true false true false (VString "tile-view") None) in
  ¬ (_showPrejoin (props this) || _showLobby (props this) = true →
     shows CalleeInfoContainer (render false this) = false).
Proof.
  intros this Hclaim. specialize (Hclaim eq_refl).
  vm_compute in Hclaim. discriminate Hclaim.
Qed.

Lemma main_conference_when_no_prejoin_no_lobby_witness :
  let this := constructor
    (Sample.props_of false false false false false
       (VString "vertical-filmstrip") None) in
  (_showPrejoin (props this) = false ∧ _showLobby (props this) = false)
  ∧ (shows Prejoin (render false this) = false
     ∧ shows LobbyScreen (render false this) = false
     ∧ shows Toolbox (render false this) = true).
Proof.
  intros this. split; [ split; reflexivity | ].
  apply (main_conference_when_no_prejoin_no_lobby false this); reflexivity.
Defined.

Lemma resolve_deterministic_witness :
  let state := Sample.state_of true false true true (PString "horizontal-filmstrip-view") in
  resolve LAYOUTS_sample false state = resolve LAYOUTS_sample true state.
Proof.
  intros state.
  apply (resolve_deterministic LAYOUTS_sample false true state state).
  reflexivity.
Defined.

Lemma setBackground_without_element_or_alpha_witness :
  let this := constructor
    (Sample.props_of false false false true false (VString "tile-view")
       (Some "0.5")) in
  _setBackground (Util.setColorAlpha Sample.parseColor Sample.printColor)
    this None Sample.dom = Some Sample.dom.
Proof.
  intros this.
  apply (setBackground_without_element_or_alpha _ this None Sample.dom).
  left. reflexivity.
Defined.

Lemma setBackground_adjusts_element_and_parent_witness :
  let this := constructor
    (Sample.props_of false false false true false (VString "tile-view")
       (Some "0.5")) in
  ∃ dom',
    _setBackground (Util.setColorAlpha Sample.parseColor Sample.printColor)
      this (Some 1) Sample.dom = Some dom'
    ∧ style_background <$> dom' !! 1 = Some "rgb(255 255 255 / 0.5)"
    ∧ style_background <$> dom' !! 0 = Some "rgb(4 4 4 / 0.5)".
Proof.
  intros this.
  destruct (setBackground_adjusts_element_and_parent
              Sample.parseColor Sample.printColor this Sample.dom 1 0
              {| style_background := "rgb(255 255 255)"; parentElement := Some 0 |}
              {| style_background := "rgb(4 4 4 / 1)"; parentElement := None |}
              {| Util.rest := "255 255 255"; Util.alpha := None |}
              "0.5")
    as (dom' & e' & pe' & Hrun & He & Hpe & Hbe & Hbpe & _);
    try (vm_compute; reflexivity).
  { discriminate. }
  exists dom'. rewrite He, Hpe. simpl. rewrite Hbe, Hbpe.
  split; [ exact Hrun | ]. split; reflexivity.
Defined.

(** A parent whose background is unset: the element is adjusted, the
    parent's background is written back as it was. *)
Example setBackground_parent_without_color :
  (doc ← _setBackground SampleRun.setColorAlpha SampleRun.this (Some 1)
           SampleRun.unset_parent;
   Some (style_background <$> doc !! 1, style_background <$> doc !! 0))
  = Some (Some "rgb(255 255 255 / 0.5)", Some "").
Proof. vm_compute. reflexivity. Qed.

(** * The life cycle *)

(** ** Listener lists *)

Section Listeners.

Implicit Types (ls : list (string * Listener)) (x y : string * Listener).
Implicit Types (l : Listener) (types : list string).

Lemma elem_of_add_listener x y ls : y ∈ add_listener x ls ↔ y = x ∨ y ∈ ls.
Proof.
  unfold add_listener. case_bool_decide as Hin.
  - split; [ by right | ]. intros [-> | H]; done.
  - rewrite elem_of_app, list_elem_of_singleton. tauto.
Qed.

Lemma NoDup_add_listener x ls : NoDup ls → NoDup (add_listener x ls).
Proof.
  intros Hnd. unfold add_listener. case_bool_decide as Hin; [ done | ].
  apply NoDup_app. split; [ done | ]. split; [ | apply NoDup_singleton ].
  intros y Hy. rewrite list_elem_of_singleton. by intros ->.
Qed.

Lemma remove_listener_absent x ls : x ∉ ls → remove_listener x ls = ls.
Proof.
  induction ls as [| y ls IH]; [ done | ].
  intros [Hne Hout]%not_elem_of_cons. simpl.
  rewrite bool_decide_eq_false_2 by congruence. by rewrite IH.
Qed.

Lemma elem_of_remove_listener_ne x y ls :
  y ≠ x → y ∈ remove_listener x ls ↔ y ∈ ls.
Proof.
  intros Hne. induction ls as [| z ls IH]; [ done | ].
  simpl. case_bool_decide as Heq.
  - subst z. rewrite elem_of_cons. split; [ by right | by intros [? | ?] ].
  - rewrite !elem_of_cons, IH. done.
Qed.

Lemma remove_listener_filter x ls :
  NoDup ls → remove_listener x ls = filter (λ y, y ≠ x) ls.
Proof.
  induction ls as [| z ls IH]; [ done | ].
  intros [Hout Hnd]%NoDup_cons. simpl. rewrite filter_cons.
  case_bool_decide as Heq.
  - subst z. destruct (decide (x ≠ x)) as [ ? | _ ]; [ done | ].
    rewrite <- IH by done. by rewrite remove_listener_absent.
  - destruct (decide (z ≠ x)) as [ _ | ? ]; [ | done ]. by rewrite IH.
Qed.

Lemma NoDup_remove_listener x ls : NoDup ls → NoDup (remove_listener x ls).
Proof.
  intros Hnd. rewrite remove_listener_filter by done. by apply NoDup_filter.
Qed.

Lemma elem_of_add_listeners l types ls y :
  y ∈ add_listeners l types ls ↔ y ∈ ls ∨ registers l types y.
Proof.
  unfold add_listeners, registers. revert ls.
  induction types as [| type types IH]; intros ls; simpl.
  - rewrite elem_of_nil. tauto.
  - rewrite IH, elem_of_add_listener, elem_of_cons.
    destruct y as [ty ly]. simpl. split.
    + intros [[[= -> ->] | H] | [H1 H2]]; auto.
    + intros [H | [<- [-> | H]]]; auto.
Qed.

Lemma remove_listeners_filter l types ls :
  NoDup ls →
  remove_listeners l types ls = filter (λ y, ¬ registers l types y) ls.
Proof.
  unfold remove_listeners, registers. revert ls.
  induction types as [| type types IH]; intros ls Hnd; simpl.
  - symmetry. induction ls as [| y ls IHls]; [ done | ].
    apply NoDup_cons in Hnd as [_ Hnd].
    rewrite filter_cons_True, IHls; [ done | done | ].
    intros [_ ?%elem_of_nil]. done.
  - rewrite IH by by apply NoDup_remove_listener.
    rewrite remove_listener_filter by done.
    rewrite list_filter_filter. apply list_filter_iff.
    intros [ty ly]. simpl. rewrite elem_of_cons. split.
    + intros [H1 H2] [-> [-> | H]]; [ done | ]. by apply H1.
    + intros H. split.
      * intros [-> Hin]. apply H. auto.
      * intros [= -> ->]. apply H. auto.
Qed.

End Listeners.

(** ** Mounting and unmounting *)

Section LifeCycleProps.

Context {number : Type}.
Variable collaborator : Call → World → World.
Implicit Types (this : Conference number) (w : World) (self : nat).

Lemma listeners_fold_add l types w :
  document_listeners
    (fold_left (λ w name, addEventListener name l w) types w)
  = add_listeners l types (document_listeners w).
Proof.
  unfold add_listeners. revert w.
  induction types as [| type types IH]; intros w; simpl; [ done | ].
  by rewrite IH.
Qed.

Lemma listeners_fold_remove l types w :
  document_listeners
    (fold_left (λ w name, removeEventListener name l w) types w)
  = remove_listeners l types (document_listeners w).
Proof.
  unfold remove_listeners. revert w.
  induction types as [| type types IH]; intros w; simpl; [ done | ].
  by rewrite IH.
Qed.

(** A call to a collaborator that keeps a listener keeps its
    registrations. *)
Lemma elem_of_listeners_external (l : Listener) (c : Call) w entry :
  keeps_listener collaborator l →
  entry.2 = l →
  entry ∈ document_listeners (external collaborator c w)
  ↔ entry ∈ document_listeners w.
Proof.
  intros Hkeeps Hentry. unfold external.
  by rewrite (Hkeeps c (call c w) entry Hentry).
Qed.

Lemma NoDup_listeners_external (c : Call) w :
  keeps_unique collaborator →
  NoDup (document_listeners w) →
  NoDup (document_listeners (external collaborator c w)).
Proof. intros Hunique Hnd. unfold external. by apply Hunique. Qed.

(** X3: when the collaborators called by [_start] neither register nor
    remove the instance's full screen listener, that listener is
    registered for each of the three full screen events once [_start]
    has run, whatever else the collaborators do to the listener list. *)
Theorem start_registers_listeners self this w :
  keeps_listener collaborator (fullScreenListener self this) →
  ∀ type, type ∈ FULL_SCREEN_EVENTS →
    (type, fullScreenListener self this)
    ∈ document_listeners (_start collaborator self this w).
Proof.
  intros Hkeeps type Hin. unfold _start. cbv zeta.
  rewrite !(elem_of_listeners_external (fullScreenListener self this)) by done.
  rewrite listeners_fold_add. apply elem_of_add_listeners. right. by split.
Qed.

(** X2: when the collaborators called by [componentWillUnmount] neither
    register nor remove the instance's full screen listener and keep the
    listener list free of duplicates, then on a list without duplicates
    the instance's listener is registered for none of the three full
    screen events once [componentWillUnmount] has run. *)
Theorem unmount_removes_own_listeners isJoined self this w :
  keeps_listener collaborator (fullScreenListener self this) →
  keeps_unique collaborator →
  NoDup (document_listeners w) →
  ∀ type, type ∈ FULL_SCREEN_EVENTS →
    (type, fullScreenListener self this)
    ∉ document_listeners (componentWillUnmount collaborator isJoined self this w).
Proof.
  intros Hkeeps Hunique Hnd type Hin. unfold componentWillUnmount. cbv zeta.
  assert ((type, fullScreenListener self this)
          ∉ document_listeners
              (fold_left
                 (λ w name,
                    removeEventListener name (fullScreenListener self this) w)
                 FULL_SCREEN_EVENTS
                 (external collaborator APP_UI_unbindEvents w))) as Hgone.
  { rewrite listeners_fold_remove.
    rewrite remove_listeners_filter by by apply NoDup_listeners_external.
    rewrite list_elem_of_filter. intros [Hnot _]. apply Hnot. by split. }
  destruct isJoined; [ | done ].
  by rewrite (elem_of_listeners_external (fullScreenListener self this)).
Qed.

Lemma refreshes_componentDidUpdate this prevProps w :
  refreshes (componentDidUpdate this prevProps w)
  = refreshes w
    + (if Bool.eqb (_shouldDisplayTileView (abstractProps (props this)))
                   (_shouldDisplayTileView (abstractProps prevProps))
       then 0 else 1).
Proof.
  unfold componentDidUpdate, refreshes.
  destruct (Bool.eqb _ _); simpl; [ lia | ].
  rewrite filter_app, length_app. reflexivity.
Qed.

(** X6: along a sequence of props updates, [VideoLayout.refreshLayout] is
    called once for each change of [_shouldDisplayTileView] from one props
    to the next, and never otherwise. *)
Theorem refreshLayout_once_per_tile_view_change
    (next : list (Props number)) this w :
  refreshes (updates next this w).2
  = refreshes w
    + flips (_shouldDisplayTileView (abstractProps (props this)))
        (map (λ p, _shouldDisplayTileView (abstractProps p)) next).
Proof.
  revert this w. induction next as [| p next IH]; intros this w; simpl.
  - lia.
  - rewrite IH, refreshes_componentDidUpdate. simpl. lia.
Qed.

End LifeCycleProps.

(** * More on the background opacity *)

Section SetBackgroundFrame.

Context {number : Type}.
Variable setColorAlpha : string → number → string.
Implicit Types (this : Conference number) (doc : gmap nat Element).

Lemma parentElement_set_style_background (value : string) (e : Element) :
  parentElement (set_style_background value e) = parentElement e.
Proof. reflexivity. Qed.

(** Writing the background of an element that is in the document keeps
    every parent link. *)
Lemma lookup_parent_insert_background doc (r ref : nat) (e : Element) (value : string) :
  doc !! r = Some e →
  parentElement <$> (<[r := set_style_background value e]> doc) !! ref
  = parentElement <$> doc !! ref.
Proof.
  intros He. destruct (decide (r = ref)) as [-> | Hne].
  - by rewrite lookup_insert_eq, He.
  - by rewrite lookup_insert_ne.
Qed.

(** What a call of [_setBackground] leaves alone. *)
Lemma setBackground_preserves this element doc doc' :
  _setBackground setColorAlpha this element doc = Some doc' →
  dom doc' = dom doc
  ∧ (∀ ref, parentElement <$> doc' !! ref = parentElement <$> doc !! ref)
  ∧ (∀ ref,
       element ≠ Some ref →
       (∀ el e, element = Some el → doc !! el = Some e → parentElement e ≠ Some ref) →
       doc' !! ref = doc !! ref).
Proof.
  unfold _setBackground. intros Hrun.
  destruct element as [el |]; [ | by simplify_eq ].
  destruct (_backgroundAlpha (props this)) as [a |]; [ | by simplify_eq ].
  destruct (doc !! el) as [e |] eqn:He; [ | done ]. simpl in Hrun.
  destruct (parentElement e) as [parent |] eqn:Hparent.
  - destruct (_ !! parent) as [pe |] eqn:Hpe; [ | done ]. simpl in Hrun.
    injection Hrun as <-.
    split; [ | split ].
    + rewrite dom_insert_lookup_L by done. by apply dom_insert_lookup_L.
    + intros ref.
      rewrite (lookup_parent_insert_background _ parent ref pe) by done.
      by apply lookup_parent_insert_background.
    + intros ref Hel Hpar.
      rewrite !lookup_insert_ne; [ done | congruence | ].
      intros ->. by apply (Hpar el e).
  - injection Hrun as <-.
    split; [ | split ].
    + by apply dom_insert_lookup_L.
    + intros ref. by apply lookup_parent_insert_background.
    + intros ref Hel _. rewrite lookup_insert_ne; [ done | congruence ].
Qed.

(** X7: whatever [_setBackground] is called with, it adds and removes no
    element, changes no [parentElement], and leaves every element other
    than the one passed and that element's parent as it was. *)
Theorem setBackground_frame this element doc doc' :
  _setBackground setColorAlpha this element doc = Some doc' →
  dom doc' = dom doc
  ∧ (∀ ref, parentElement <$> doc' !! ref = parentElement <$> doc !! ref)
  ∧ (∀ ref,
       element ≠ Some ref →
       (∀ el e, element = Some el → doc !! el = Some e → parentElement e ≠ Some ref) →
       doc' !! ref = doc !! ref).
Proof. apply setBackground_preserves. Qed.

(** X8: on a closed document [_setBackground] returns for every element
    of the document, and the document it returns is closed again. *)
Theorem setBackground_closed this (el : nat) doc :
  closed doc →
  is_Some (doc !! el) →
  ∃ doc', _setBackground setColorAlpha this (Some el) doc = Some doc'
          ∧ closed doc'.
Proof.
  intros Hclosed [e He].
  assert (is_Some (_setBackground setColorAlpha this (Some el) doc)) as [doc' Hrun].
  { unfold _setBackground.
    destruct (_backgroundAlpha (props this)) as [a |]; [ | by eexists ].
    rewrite He. simpl.
    destruct (parentElement e) as [parent |] eqn:Hparent; [ | by eexists ].
    destruct (Hclosed el e parent He Hparent) as [pe Hpe].
    destruct (decide (el = parent)) as [<- | Hne].
    - rewrite lookup_insert_eq. by eexists.
    - rewrite lookup_insert_ne, Hpe by done. by eexists. }
  exists doc'. split; [ done | ].
  destruct (setBackground_preserves _ _ _ _ Hrun) as (Hdom & Hparents & _).
  intros ref e' parent Hlookup Hparent.
  assert (parentElement <$> doc !! ref = Some (Some parent)) as Hold.
  { by rewrite <- Hparents, Hlookup; simpl; rewrite Hparent. }
  destruct (doc !! ref) as [e0 |] eqn:He0; [ | done ].
  simpl in Hold. injection Hold as Hold.
  apply (elem_of_dom (D := gset nat)). rewrite Hdom. apply elem_of_dom.
  by apply (Hclosed ref e0 parent).
Qed.

Lemma set_style_background_same (e : Element) :
  set_style_background (style_background e) e = e.
Proof. by destruct e. Qed.

(** Writing back the backgrounds that are there already. *)
Lemma setBackground_same_colors this (el : nat) doc (e : Element) (a : number) :
  _backgroundAlpha (props this) = Some a →
  doc !! el = Some e →
  setColorAlpha (style_background e) a = style_background e →
  (∀ parent, parentElement e = Some parent →
     ∃ pe, doc !! parent = Some pe
           ∧ setColorAlpha (style_background pe) a = style_background pe) →
  _setBackground setColorAlpha this (Some el) doc = Some doc.
Proof.
  intros Halpha He Hfix Hparent.
  unfold _setBackground. rewrite Halpha, He. simpl.
  rewrite Hfix, set_style_background_same, (insert_id doc el e) by done.
  destruct (parentElement e) as [parent |]; [ | done ].
  destruct (Hparent parent eq_refl) as (pe & Hpe & Hpfix).
  rewrite Hpe. simpl.
  by rewrite Hpfix, set_style_background_same, insert_id.
Qed.

(** X9: when [setColorAlpha] returns the element's background and its
    parent's background as they are, [_setBackground] returns the
    document unchanged. *)
Theorem setBackground_fixed_colors this (el : nat) doc (e : Element) (a : number) :
  _backgroundAlpha (props this) = Some a →
  doc !! el = Some e →
  setColorAlpha (style_background e) a = style_background e →
  (∀ parent, parentElement e = Some parent →
     ∃ pe, doc !! parent = Some pe
           ∧ setColorAlpha (style_background pe) a = style_background pe) →
  _setBackground setColorAlpha this (Some el) doc = Some doc.
Proof. apply setBackground_same_colors. Qed.

(** X10: when [setColorAlpha] with the same alpha leaves its own results
    for the element and for the parent as they are, a second
    [_setBackground] on the same element changes nothing more. *)
Theorem setBackground_twice this (el : nat) doc (e : Element) (a : number) :
  _backgroundAlpha (props this) = Some a →
  doc !! el = Some e →
  setColorAlpha (setColorAlpha (style_background e) a) a
  = setColorAlpha (style_background e) a →
  (∀ parent, parentElement e = Some parent →
     parent ≠ el
     ∧ ∃ pe, doc !! parent = Some pe
             ∧ setColorAlpha (setColorAlpha (style_background pe) a) a
               = setColorAlpha (style_background pe) a) →
  ∃ doc', _setBackground setColorAlpha this (Some el) doc = Some doc'
          ∧ _setBackground setColorAlpha this (Some el) doc' = Some doc'.
Proof.
  intros Halpha He Hidem Hparent.
  destruct (parentElement e) as [parent |] eqn:Hpar.
  - destruct (Hparent parent eq_refl) as (Hne & pe & Hpe & Hpidem).
    eexists. split.
    + unfold _setBackground. rewrite Halpha, He. simpl. rewrite Hpar.
      rewrite lookup_insert_ne, Hpe by done. reflexivity.
    + apply (setBackground_same_colors this el _
               (set_style_background (setColorAlpha (style_background e) a) e) a);
        [ done | | done | ].
      * rewrite lookup_insert_ne by done. apply lookup_insert_eq.
      * simpl. rewrite Hpar. intros ? [= <-].
        eexists. split; [ apply lookup_insert_eq | done ].
  - eexists. split.
    + unfold _setBackground. rewrite Halpha, He. simpl. rewrite Hpar.
      reflexivity.
    + apply (setBackground_same_colors this el _
               (set_style_background (setColorAlpha (style_background e) a) e) a);
        [ done | apply lookup_insert_eq | done | ].
      simpl. rewrite Hpar. intros ? [=].
Qed.

End SetBackgroundFrame.

(** * More on [render] and the layout table *)

Section RenderMore.

Context {number : Type}.
Implicit Types (this : Conference number) (isMobileBrowser : bool).

(** X11: no rendering mounts a component twice. *)
Theorem render_mounts_each_component_once isMobileBrowser this :
  NoDup (mounted (render isMobileBrowser this)).
Proof.
  rewrite mounted_render.
  destruct (_showStageFilmstrip (props this)), (_showPrejoin (props this)),
    (_showLobby (props this)),
    (_notificationsVisible (abstractProps (props this))),
    (_overflowDrawer (props this));
    apply (bool_decide_unpack _); vm_compute; exact I.
Qed.

(** X12: which components are mounted, and where notifications go, is
    decided by the five flags alone: two instances that agree on them
    mount the same components, whatever their room name, background
    alpha, layout class, tile view flag, callbacks and environment. *)
Theorem mounted_depends_on_flags_only isMobileBrowser1 isMobileBrowser2
    (this1 this2 : Conference number) :
  _showStageFilmstrip (props this1) = _showStageFilmstrip (props this2) →
  _showPrejoin (props this1) = _showPrejoin (props this2) →
  _showLobby (props this1) = _showLobby (props this2) →
  _notificationsVisible (abstractProps (props this1))
  = _notificationsVisible (abstractProps (props this2)) →
  _overflowDrawer (props this1) = _overflowDrawer (props this2) →
  mounted (render isMobileBrowser1 this1) = mounted (render isMobileBrowser2 this2)
  ∧ notificationPlacement (render isMobileBrowser1 this1)
    = notificationPlacement (render isMobileBrowser2 this2).
Proof.
  intros Hstage Hpre Hlobby Hvisible Hdrawer. split.
  - rewrite !mounted_render. by rewrite Hstage, Hpre, Hlobby, Hvisible, Hdrawer.
  - unfold notificationPlacement, render, videoconference_page_children.
    rewrite Hstage, Hpre, Hlobby, Hvisible, Hdrawer.
    by destruct (_showStageFilmstrip (props this2)), (_showPrejoin (props this2)),
      (_showLobby (props this2)),
      (_notificationsVisible (abstractProps (props this2))),
      (_overflowDrawer (props this2)).
Qed.

Lemma pageClassName_render isMobileBrowser this :
  pageClassName (viewModel (render isMobileBrowser this))
  = Some (AString (clsx [ _layoutClassName (props this);
                          if _showStageFilmstrip (props this)
                          then VString "stage-filmstrip" else VBool false ])).
Proof. reflexivity. Qed.

Lemma shows_StageFilmstrip isMobileBrowser this :
  shows StageFilmstrip (render isMobileBrowser this)
  = _showStageFilmstrip (props this).
Proof.
  unfold shows. rewrite mounted_render.
  destruct (_showStageFilmstrip (props this)), (_showPrejoin (props this)),
    (_showLobby (props this)),
    (_notificationsVisible (abstractProps (props this))),
    (_overflowDrawer (props this)); reflexivity.
Qed.

Variable LAYOUTS : LAYOUTS_t.

(** The strings of the table are the three class names. *)
Lemma LAYOUT_CLASSNAMES_range (k s : string) :
  LAYOUT_CLASSNAMES LAYOUTS !! k = Some s →
  s = "horizontal-filmstrip" ∨ s = "tile-view" ∨ s = "vertical-filmstrip".
Proof.
  unfold LAYOUT_CLASSNAMES.
  rewrite !lookup_insert_Some, lookup_empty.
  intros [[_ <-] | [_ [[_ <-] | [_ [[_ <-] | [_ [=]]]]]]]; auto.
Qed.

Lemma iff_of_bool_decide (P : Prop) `{Decision P} (b : bool) :
  bool_decide P = b → (P ↔ b = true).
Proof. intros <-. symmetry. apply bool_decide_eq_true. Qed.

(** X13: for props made by [_mapStateToProps], whatever the layout
    value, the page element carries the class token "stage-filmstrip"
    exactly when the StageFilmstrip component is mounted. *)
Theorem stage_filmstrip_class_iff_mounted isMobileBrowser (state : State number) :
  ∃ p s,
    _mapStateToProps LAYOUTS state = Normal p
    ∧ pageClassName (viewModel (render isMobileBrowser (constructor p)))
      = Some (AString s)
    ∧ ("stage-filmstrip" ∈ classList s
       ↔ shows StageFilmstrip (render isMobileBrowser (constructor p)) = true).
Proof.
  eexists _, _. split; [ reflexivity | ]. split; [ apply pageClassName_render | ].
  rewrite shows_StageFilmstrip. simpl. apply (iff_of_bool_decide _).
  unfold layoutClassName, get.
  destruct (LAYOUT_CLASSNAMES LAYOUTS !! _) as [s |] eqn:Hlookup.
  - apply LAYOUT_CLASSNAMES_range in Hlookup as [-> | [-> | ->]];
      by destruct (shouldDisplayStageFilmstrip state).
  - destruct (bool_decide (_ ∈ Object_prototype));
      by destruct (shouldDisplayStageFilmstrip state).
Qed.

(** X14: with the three keys distinct, a state whose current layout is
    the key of a mode gives the page element exactly the class of that
    mode, followed by " stage-filmstrip" when the stage filmstrip is
    displayed. *)
Theorem page_class_of_mode isMobileBrowser (state : State number) (m : LayoutMode) :
  distinct_keys LAYOUTS →
  getCurrentLayout state = PString (layout_key LAYOUTS m) →
  ∃ p,
    _mapStateToProps LAYOUTS state = Normal p
    ∧ pageClassName (viewModel (render isMobileBrowser (constructor p)))
      = Some (AString (class_of_mode m
                       ++ (if shouldDisplayStageFilmstrip state
                           then " stage-filmstrip" else ""))).
Proof.
  intros Hkeys Hlayout.
  eexists. split; [ reflexivity | ]. rewrite pageClassName_render. simpl.
  rewrite Hlayout. fold (of_mode LAYOUTS m). rewrite of_mode_expected by done.
  by destruct m, (shouldDisplayStageFilmstrip state).
Qed.

(** X15: whatever the three keys are, also when some coincide, the
    lookup at a key of [LAYOUTS] gives a class name and never
    [undefined]: the entry written last in the table wins. *)
Theorem layout_table_later_key_wins :
  of_mode LAYOUTS VerticalFilmstrip = VString "vertical-filmstrip"
  ∧ of_mode LAYOUTS TileView
    = VString (if decide (TILE_VIEW LAYOUTS = VERTICAL_FILMSTRIP_VIEW LAYOUTS)
               then "vertical-filmstrip" else "tile-view")
  ∧ of_mode LAYOUTS HorizontalFilmstrip
    = VString
        (if decide (HORIZONTAL_FILMSTRIP_VIEW LAYOUTS = VERTICAL_FILMSTRIP_VIEW LAYOUTS)
         then "vertical-filmstrip"
         else if decide (HORIZONTAL_FILMSTRIP_VIEW LAYOUTS = TILE_VIEW LAYOUTS)
              then "tile-view" else "horizontal-filmstrip").
Proof.
  unfold of_mode, layoutClassName, get, LAYOUT_CLASSNAMES. simpl.
  split; [ | split ].
  - by rewrite lookup_insert_eq.
  - destruct (decide _) as [-> | Hne].
    + by rewrite lookup_insert_eq.
    + rewrite lookup_insert_ne by congruence. by rewrite lookup_insert_eq.
  - destruct (decide _) as [-> | Hv].
    + by rewrite lookup_insert_eq.
    + destruct (decide _) as [Heq | Ht].
      * rewrite Heq in *.
        rewrite lookup_insert_ne by congruence. by rewrite lookup_insert_eq.
      * rewrite !lookup_insert_ne by congruence. by rewrite lookup_insert_eq.
Qed.

End RenderMore.

(** * The further properties on sample inputs *)

Lemma sample_collaborator_keeps_listener :
  keeps_listener SampleRun.collaborator (fullScreenListener 1 SampleRun.this).
Proof.
  intros c w entry Hentry.
  assert (entry ≠ ("fullscreenchange", SampleRun.legacy_listener)) as Hne.
  { intros ->. discriminate Hentry. }
  destruct c; try done; simpl.
  - rewrite elem_of_add_listener. split; [ by intros [? | ?] | by right ].
  - by apply elem_of_remove_listener_ne.
Qed.

Lemma sample_collaborator_keeps_unique : keeps_unique SampleRun.collaborator.
Proof.
  intros c w Hnd. destruct c; try done; simpl.
  - by apply NoDup_add_listener.
  - by apply NoDup_remove_listener.
Qed.

Lemma start_registers_listeners_witness :
  ("fullscreenchange", fullScreenListener 1 SampleRun.this)
  ∈ document_listeners
      (_start SampleRun.collaborator 1 SampleRun.this SampleRun.world).
Proof.
  apply (start_registers_listeners SampleRun.collaborator 1 SampleRun.this
           SampleRun.world sample_collaborator_keeps_listener).
  apply (bool_decide_unpack _). vm_compute. exact I.
Defined.

Lemma unmount_removes_own_listeners_witness :
  ("fullscreenchange", fullScreenListener 1 SampleRun.this)
  ∉ document_listeners
      (componentWillUnmount SampleRun.collaborator true 1 SampleRun.this
         (_start SampleRun.collaborator 1 SampleRun.this SampleRun.world)).
Proof.
  apply (unmount_removes_own_listeners SampleRun.collaborator true 1
           SampleRun.this
           (_start SampleRun.collaborator 1 SampleRun.this SampleRun.world)
           sample_collaborator_keeps_listener sample_collaborator_keeps_unique).
  - apply (bool_decide_unpack _). vm_compute. exact I.
  - apply (bool_decide_unpack _). vm_compute. exact I.
Defined.

Lemma setBackground_frame_witness :
  ∃ doc',
    _setBackground SampleRun.setColorAlpha SampleRun.this (Some 1) Sample.dom
    = Some doc'
    ∧ dom doc' = dom Sample.dom.
Proof.
  destruct (_setBackground SampleRun.setColorAlpha SampleRun.this (Some 1) Sample.dom)
    as [doc' |] eqn:Hrun; [ | vm_compute in Hrun; discriminate Hrun ].
  exists doc'. split; [ reflexivity | ].
  apply (setBackground_frame SampleRun.setColorAlpha SampleRun.this (Some 1)
           Sample.dom doc' Hrun).
Defined.

Lemma closed_sample_dom : closed Sample.dom.
Proof.
  intros ref e parent Hlookup Hparent. unfold Sample.dom in *.
  apply lookup_insert_Some in Hlookup as [[<- <-] | [_ Hlookup]].
  - injection Hparent as <-. by eexists.
  - apply lookup_insert_Some in Hlookup as [[<- <-] | [_ Hlookup]]; done.
Qed.

Lemma setBackground_closed_witness :
  ∃ doc',
    _setBackground SampleRun.setColorAlpha SampleRun.this (Some 1) Sample.dom
    = Some doc'
    ∧ closed doc'.
Proof.
  apply (setBackground_closed SampleRun.setColorAlpha SampleRun.this 1 Sample.dom).
  - exact closed_sample_dom.
  - by eexists.
Defined.

Lemma setBackground_fixed_colors_witness :
  _setBackground SampleRun.setColorAlpha SampleRun.this (Some 1) SampleRun.plain
  = Some SampleRun.plain.
Proof.
  apply (setBackground_fixed_colors SampleRun.setColorAlpha SampleRun.this 1
           SampleRun.plain
           {| style_background := "not-a-color"; parentElement := Some 0 |}
           "0.5"); try reflexivity.
  intros parent [= <-]. eexists. split; reflexivity.
Defined.

Lemma setBackground_twice_witness :
  ∃ doc',
    _setBackground SampleRun.setColorAlpha SampleRun.this (Some 1) Sample.dom
    = Some doc'
    ∧ _setBackground SampleRun.setColorAlpha SampleRun.this (Some 1) doc'
      = Some doc'.
Proof.
  apply (setBackground_twice SampleRun.setColorAlpha SampleRun.this 1 Sample.dom
           {| style_background := "rgb(255 255 255)"; parentElement := Some 0 |}
           "0.5"); try reflexivity.
  intros parent [= <-]. split; [ discriminate | ].
  eexists. split; reflexivity.
Defined.

Lemma mounted_depends_on_flags_only_witness :
  let this1 := constructor
    (Sample.props_of false true false true false (VString "tile-view") None) in
  let this2 := constructor
    (Sample.props_of false true false true false
       (VString "vertical-filmstrip") (Some "0.5")) in
  mounted (render false this1) = mounted (render true this2)
  ∧ notificationPlacement (render false this1)
    = notificationPlacement (render true this2).
Proof.
  intros this1 this2.
  apply (mounted_depends_on_flags_only false true this1 this2); reflexivity.
Defined.

Lemma page_class_of_mode_witness :
  let state := Sample.state_of false false false true (PString "tile-view") in
  ∃ p,
    _mapStateToProps LAYOUTS_sample state = Normal p
    ∧ pageClassName (viewModel (render false (constructor p)))
      = Some (AString "tile-view").
Proof.
  intros state.
  apply (page_class_of_mode LAYOUTS_sample false state TileView).
  - repeat split; discriminate.
  - reflexivity.
Defined.
